(** * Shallow embedding of [script03_apiwrapgen.py] (pyfred)

    The generator reads the descriptor store [apidat] and the documentation
    store [docdat], and writes one Python wrapper per command to the output
    file [fid], logging progress with [print].  The output file is modelled
    as the list of strings handed to [fid.write], in order; the status
    stream as the list of printed lines.  Python exceptions ([KeyError],
    [ValueError]) abort the run and are modelled by an error monad. *)

From Stdlib Require Import String Ascii List Bool Arith Lia.
Import ListNotations.
Open Scope string_scope.

(** ** Python errors and a small error monad *)

Inductive pyerr : Type :=
| KeyError (key : string)
| ValueError.

Definition res (A : Type) : Type := (pyerr + A)%type.

Definition ok {A : Type} (a : A) : res A := inr a.
Definition raise {A : Type} (e : pyerr) : res A := inl e.

Definition bind {A B : Type} (m : res A) (k : A -> res B) : res B :=
  match m with
  | inl e => inl e
  | inr a => k a
  end.

Notation "x <- m ;; k" := (bind m (fun x => k))
  (at level 61, m at next level, right associativity).

(** ** Strings *)

(** A double quote character (written through its code so that no string
    literal of this file contains a doubled quote). *)
Definition dq : string := String (ascii_of_nat 34) EmptyString.
Definition nl : string := String (ascii_of_nat 10) EmptyString.

(** [sep.join(l)] *)
Fixpoint join (sep : string) (l : list string) : string :=
  match l with
  | [] => ""
  | [x] => x
  | x :: r => x ++ sep ++ join sep r
  end.

(** [s * n] *)
Fixpoint repeat_str (s : string) (n : nat) : string :=
  match n with
  | O => ""
  | S m => s ++ repeat_str s m
  end.

(** [str.upper()] on the ASCII letters. *)
Definition upper_char (c : ascii) : ascii :=
  let n := nat_of_ascii c in
  if (97 <=? n)%nat && (n <=? 122)%nat then ascii_of_nat (n - 32)%nat else c.

Fixpoint upper (s : string) : string :=
  match s with
  | EmptyString => EmptyString
  | String c r => String (upper_char c) (upper r)
  end.

(** [d[k]] on a dict, as an association list in iteration order. *)
Fixpoint dict_get {A : Type} (k : string) (d : list (string * A)) : option A :=
  match d with
  | [] => None
  | (k', v) :: r => if string_dec k k' then Some v else dict_get k r
  end.

Definition getitem {A : Type} (d : list (string * A)) (k : string) : res A :=
  match dict_get k d with
  | Some v => ok v
  | None => raise (KeyError k)
  end.

(** ** The regex [PARMAT = re.compile('\s*\(\s*\)\s*')]

    [\s] of a [str] pattern: characters are read as Latin-1 code points,
    whose whitespace for Python's [re] is 9..13, 28..32, 133 and 160. *)
Definition is_space (c : ascii) : bool :=
  let n := nat_of_ascii c in
  ((9 <=? n)%nat && (n <=? 13)%nat) || ((28 <=? n)%nat && (n <=? 32)%nat)
  || (n =? 133)%nat || (n =? 160)%nat.

(** The greedy [\s*]: as [\s] and the parentheses are disjoint, the greedy
    choice is the only one that can lead to a match. *)
Fixpoint drop_ws (s : string) : string :=
  match s with
  | String c r => if is_space c then drop_ws r else s
  | EmptyString => s
  end.

(** An anchored match of the pattern at the start of [s]: the rest of the
    string after the match. *)
Definition match_at (s : string) : option string :=
  match drop_ws s with
  | String c1 r1 =>
      if ascii_dec c1 "("%char then
        match drop_ws r1 with
        | String c2 r2 =>
            if ascii_dec c2 ")"%char then Some (drop_ws r2) else None
        | EmptyString => None
        end
      else None
  | EmptyString => None
  end.

(** [PARMAT.search(s) is not None] *)
Fixpoint PARMAT_search (s : string) : bool :=
  match match_at s with
  | Some _ => true
  | None =>
      match s with
      | EmptyString => false
      | String _ r => PARMAT_search r
      end
  end.

(** [PARMAT.sub('', s)]: scan left to right, delete every non-overlapping
    match, keep the other characters.  The pattern cannot match the empty
    string, so the scan always advances; [fuel] bounds it by [length s]. *)
Fixpoint PARMAT_sub_fuel (fuel : nat) (s : string) : string :=
  match fuel with
  | O => s
  | S f =>
      match match_at s with
      | Some rest => PARMAT_sub_fuel f rest
      | None =>
          match s with
          | EmptyString => EmptyString
          | String c r => String c (PARMAT_sub_fuel f r)
          end
      end
  end.

Definition PARMAT_sub (s : string) : string := PARMAT_sub_fuel (String.length s) s.

Example PARMAT_ex1 : PARMAT_sub "coords()" = "coords" /\ PARMAT_sub "coords ( )" = "coords"
  /\ PARMAT_search "coords ( )" = true /\ PARMAT_search "coords" = false
  /\ PARMAT_sub "x()()" = "x" /\ PARMAT_sub "(())" = "()".
Proof. vm_compute. repeat split. Qed.

(** ** Indentation and fixed texts *)

Definition I1 : string := "    ".
Definition I2 : string := I1 ++ I1.
Definition I3 : string := I1 ++ I2.

(** [CLASTR], the boilerplate class header: the template around the one
    placeholder that [.format(TIMENOW)] fills in. *)
Definition CLASTR_head : string :=
  "#! /usr/bin/env python" ++ nl ++
  "# -*- coding: utf-8 -*-" ++ nl ++
  dq ++ dq ++ dq ++ nl ++
  "Provide class to wrap all available FRED commands" ++ nl ++
  repeat_str "=" 79 ++ nl ++
  "Copyright 2017, Arthur Davis" ++ nl ++
  "Email: art.davis@gmail.com" ++ nl ++
  "This file is part of pyfred. See LICENSE and README.md for details." ++ nl ++
  "----------" ++ nl ++ nl.

Definition CLASTR_tail : string :=
  " - File generated" ++ nl ++ nl ++
  "WARNING - This file is automatically generated by script03_apiwrapgen.py." ++ nl ++
  "Customizing functions here will override intended API function." ++ nl ++
  "Also any changes will be lost the next time script03_apiwrapgen.py is run." ++ nl ++ nl ++
  dq ++ dq ++ dq ++ nl ++
  "try:" ++ nl ++
  "    import win32com.client as w32" ++ nl ++
  "except:" ++ nl ++
  "    # Load a dummy" ++ nl ++
  "    print(" ++ dq ++ "WARNING: win32com not available. Loading dummy library." ++ dq ++ ")" ++ nl ++
  "    from w32dummy import WinMethods" ++ nl ++
  "    w32 = WinMethods()" ++ nl ++ nl ++
  "class Wrap(object):" ++ nl ++
  "    " ++ dq ++ dq ++ dq ++ nl ++
  "    Class for wrapping all of the FRED functions, subroutines and" ++ nl ++
  "    datastructures in one place with a consistent API and minimal quirks." ++ nl ++ nl ++
  "    Using this class for FRED programming may not be the most efficient" ++ nl ++
  "    computationally, but it does provide an easier transition for" ++ nl ++
  "    controlling FRED through python then just using the raw win32com API." ++ nl ++ nl ++
  "    Quirks that are caused by problematic parameter passing through the" ++ nl ++
  "    w32 API and/or inconsistent return structures are averted by wrapping" ++ nl ++
  "    all functions/subroutines with CreateLib()." ++ nl ++ nl ++
  "    Also quite handy to have around for quick access to documentation when" ++ nl ++
  "    using IPython." ++ nl ++ nl ++
  "    If imported into the global namespace, allows writing scripts that are" ++ nl ++
  "    nearly execution compatible with native FRED VBScript." ++ nl ++
  "    " ++ dq ++ dq ++ dq ++ nl ++
  "    def __init__(self, dobj):" ++ nl ++
  "        self._dobj = dobj" ++ nl ++ nl ++
  "    @property" ++ nl ++
  "    def dobj(self):" ++ nl ++
  "        " ++ dq ++ dq ++ dq ++ nl ++
  "        Attribute property for the FRED COM Interface document object" ++ nl ++
  "        " ++ dq ++ dq ++ dq ++ nl ++
  "        return self._dobj" ++ nl.

Definition CLASTR (TIMENOW : string) : string := CLASTR_head ++ TIMENOW ++ CLASTR_tail.

(** ** Command descriptors

    [apidat[cmdname]] is a dict with keys [cmdtype], [descr], [returns] and
    [sig]: [returns] a YAML list (empty, or a name and a type), [sig] the
    ordered (name, type) pairs of the signature. *)
Record cmd : Type := mkcmd {
  cmdtype : string;
  descr : string;
  returns : list string;
  sig : list (string * string)
}.

(** The descriptor store, in the iteration order of [apidat.keys()]. *)
Definition apistore : Type := list (string * cmd).

(** *** Normalisation of parameter names (lines 152-160)

    [newparams] and [annots] are dicts keyed on the raw name whose value
    depends on that name only; [newparams['self'] = "self"] agrees with this
    value at ["self"], which does not match [PARMAT]. *)
Definition newparam (p : string) : string :=
  if PARMAT_search p then PARMAT_sub p else p.

Definition annot (p : string) : string :=
  if PARMAT_search p then "Array-like of " else "".

Definition rethdg : string :=
  nl ++ I2 ++ "Returns" ++ nl ++ I2 ++ "-------" ++ nl.

Definition separator : string :=
  I1 ++ "# " ++ repeat_str "=-" 36 ++ "=" ++ nl.

(** Python's tuple unpacking [a, b = l] of a list. *)
Definition unpack2 (l : list string) : res (string * string) :=
  match l with
  | [a; b] => ok (a, b)
  | _ => raise ValueError
  end.

(** [params = [_[0] for _ in sigitems]] *)
Definition params_of (c : cmd) : list string := map fst (sig c).

(** [paramlist] after [params.insert(0, "self")] *)
Definition paramlist_of (c : cmd) : list string :=
  map newparam ("self" :: params_of c).

(** [arglist] (lines 212-217) *)
Definition arglist_of (c : cmd) : list string :=
  map (fun (li : string) => if String.eqb (cmdtype c) "datastruct"
                    && negb (String.eqb li "self")
                  then (li ++ "=None")%string else li)
      (paramlist_of c).

(** [for rn, rt in sigits: rstr.append(...)] *)
Fixpoint render_sigits (vb2pytype : string -> string) (sigits : list (list string))
  : res (list string) :=
  match sigits with
  | [] => ok []
  | it :: r =>
      p <- unpack2 it ;;
      rest <- render_sigits vb2pytype r ;;
      ok ((fst p ++ ": " ++ vb2pytype (snd p))%string :: rest)
  end.

Definition dq3 : string := dq ++ dq ++ dq.

Definition unknown_msg (cmdname : string) : string :=
  "... unknown command: " ++ cmdname ++ ". SKIPPING".

Definition wrapping_msg (cmdname : string) : string :=
  "... wrapping " ++ cmdname.

(** ** The generator [main]

    The collaborators outside this file are parameters: [utils.vb2pytype]
    (with [rettype='repr']), [utils.wrap_longlines] (text, [ncols] when
    given, [indent]), [utils.fmt_docstr] over the documentation blocks of
    type [doc], [glovars.STUBDIR] and [os.path.join]. *)
Section Generator.

Variable vb2pytype : string -> string.
Variable wrap_longlines : string -> option nat -> string -> string.
Variable doc : Type.
Variable fmt_docstr : doc -> string -> string.
Variable STUBDIR : string.
Variable path_join : string -> string -> string.

Definition indent12 : string := repeat_str " " 12.

(** [descstr] (lines 138-147) *)
Definition descstr_of (cmdname : string) (c : cmd) : string :=
  "Wrapper for FRED " ++ cmdname ++ " " ++ upper (cmdtype c) ++ "." ++ nl ++
  (if String.eqb (cmdtype c) "datastruct"
   then I2 ++ "Does not require all parameters to be set when invoked." ++ nl
   else I2 ++ "Requires all parameters to be set when invoked." ++ nl) ++
  nl ++ I2 ++ wrap_longlines (descr c) None I2.

(** [sigits] of a subroutine (lines 184-189) *)
Definition sigits_of (c : cmd) : list (list string) :=
  app (if Nat.ltb 0 (length (returns c)) then [returns c] else [])
      (map (fun it => [fst it; snd it]) (sig c)).

(** [retstr] (lines 163-205) *)
Definition retstr_of (cmdname : string) (c : cmd) : res string :=
  let rlist := returns c in
  if String.eqb (cmdtype c) "function" then
    if negb (match rlist with [] => true | _ => false end) then
      p <- unpack2 rlist ;;
      ok (rethdg ++ I2 ++ fst p ++ ": " ++ vb2pytype (snd p) ++ nl)%string
    else ok ""
  else if String.eqb (cmdtype c) "subroutine" then
    if (Nat.ltb 0 (length (sig c))) || (Nat.ltb 0 (length rlist)) then
      let sigits := sigits_of c in
      rstr <- render_sigits vb2pytype sigits ;;
      ok (rethdg ++ I2
          ++ (if Nat.ltb 1 (length sigits) then "[" else "")
          ++ join ", " rstr
          ++ (if Nat.ltb 1 (length sigits) then "]" else "")
          ++ nl)%string
    else ok ""
  else if String.eqb (cmdtype c) "datastruct" then
    ok (rethdg ++ I2 ++ "datastruct: <com_record " ++ cmdname ++ ">" ++ nl)%string
  else ok "".

(** The [def] line of the wrapper (line 219) *)
Definition def_line (cmdname : string) (c : cmd) : string :=
  I1 ++ "def " ++ cmdname ++ "("
  ++ wrap_longlines (join ", " (arglist_of c)) (Some 50) indent12
  ++ "):" ++ nl.

(** One documentation line per signature parameter (lines 230-233) *)
Definition param_line (it : string * string) : string :=
  I2 ++ newparam (fst it) ++ ": " ++ annot (fst it) ++ vb2pytype (snd it) ++ nl.

(** The parameter section (lines 227-233) *)
Definition param_doc_of (c : cmd) : list string :=
  if Nat.ltb 0 (length (tl ("self" :: params_of c))) then
    app [I2 ++ "Parameters" ++ nl; I2 ++ "----------" ++ nl]
        (map param_line (sig c))
  else [].

(** One conditional field set of a datastruct body (lines 248-250) *)
Definition field_set (p : string) : list string :=
  [I2 ++ "if " ++ p ++ " is not None:" ++ nl;
   I2 ++ I1 ++ "setattr(dstruct, " ++ dq ++ p ++ dq ++ ", " ++ p ++ ")" ++ nl].

(** [paramstr] of a function or subroutine (lines 254-259) *)
Definition paramstr_of (c : cmd) : string :=
  let paramstr := wrap_longlines (join ", " (tl (paramlist_of c))) (Some 50) indent12 in
  if String.eqb paramstr "" then "None" else paramstr.

(** The dispatch body (lines 242-264) *)
Definition body_of (cmdname : string) (c : cmd) : list string :=
  if String.eqb (cmdtype c) "datastruct" then
    app [I2 ++ "dstruct = w32.Record(" ++ dq ++ cmdname ++ dq ++ ", self._dobj)" ++ nl]
      (app (flat_map field_set (tl (paramlist_of c)))
           [I2 ++ "return dstruct" ++ nl])
  else
    let stubpath := path_join STUBDIR (cmdname ++ ".frs") in
    [I2 ++ "lib = self._dobj.CreateLib(r" ++ dq ++ stubpath ++ dq ++ ")" ++ nl;
     I2 ++ "return lib.libfunct(" ++ paramstr_of c ++ ")" ++ nl].

(** The writes of one recognised command (lines 137-264) *)
Definition wrap_cmd (docdat : list (string * doc)) (cmdname : string) (c : cmd)
  : res (list string) :=
  d <- getitem docdat cmdname ;;
  let docstr := fmt_docstr d I2 in
  retstr <- retstr_of cmdname c ;;
  ok (app [separator;
       def_line cmdname c;
       I2 ++ "r" ++ dq3 ++ nl;
       I2 ++ "Python API documentation:" ++ nl;
       I2 ++ "=========================" ++ nl;
       I2 ++ descstr_of cmdname c ++ nl;
       nl]
      (app (param_doc_of c)
      (app [retstr;
          nl;
          I2 ++ "FRED documentation:" ++ nl;
          I2 ++ "===================" ++ nl;
          docstr;
          I2 ++ dq3 ++ nl]
      (body_of cmdname c)))).

(** The loop over [cmdnames] (lines 132-264); the state is the list of
    writes to [fid] and the list of printed lines. *)
Fixpoint run_loop (apidat : apistore) (docdat : list (string * doc))
  (cmdnames : list string) (fid log : list string)
  : res (list string * list string) :=
  match cmdnames with
  | [] => ok (fid, log)
  | cmdname :: rest =>
      c <- getitem apidat cmdname ;;
      if String.eqb (cmdtype c) "unknown" then
        run_loop apidat docdat rest fid (app log [unknown_msg cmdname])
      else
        ws <- wrap_cmd docdat cmdname c ;;
        run_loop apidat docdat rest (app fid ws) (app log [wrapping_msg cmdname])
  end.

(** [main()]; [TIMENOW] is the timestamp taken when the module is loaded. *)
Definition main (TIMENOW : string) (apidat : apistore) (docdat : list (string * doc))
  : res (list string * list string) :=
  run_loop apidat docdat (map fst apidat) [CLASTR TIMENOW]
           [nl ++ "Wrapping commands in python..."].

End Generator.

(** ** Spec-side reading of the subroutine return section (spec §4.2)

    The entries the spec lists for a subroutine: the explicit return entry
    if present, then every signature parameter, each as "name: type". *)
Definition spec_sub_entries (vb2pytype : string -> string) (c : cmd) : list string :=
  app (match returns c with [n; t] => [n ++ ": " ++ vb2pytype t] | _ => [] end)
      (map (fun it => fst it ++ ": " ++ vb2pytype (snd it)) (sig c)).

(** ** Concrete collaborators, to run the generator on examples *)
Module Demo.

Definition vb2pytype (t : string) : string :=
  if String.eqb t "String" then "str"
  else if String.eqb t "Long" then "int"
  else if String.eqb t "Double" then "float"
  else if String.eqb t "Boolean" then "bool"
  else t.

(** A layout that keeps the text on one line. *)
Definition wrap_longlines (s : string) (ncols : option nat) (indent : string) : string := s.

Definition fmt_docstr (d : string) (indent : string) : string := indent ++ d ++ nl.

Definition STUBDIR : string := "stubs".
Definition path_join (a b : string) : string :=
  a ++ String (ascii_of_nat 92) EmptyString ++ b.

Definition main := main vb2pytype wrap_longlines string fmt_docstr STUBDIR path_join.
Definition retstr_of := retstr_of vb2pytype.
Definition body_of := body_of wrap_longlines STUBDIR path_join.
Definition wrap_cmd := wrap_cmd vb2pytype wrap_longlines string fmt_docstr STUBDIR path_join.

Definition GetUnits : cmd := mkcmd "function" "Get the units." ["Units"; "String"] [].
Definition SetUnits : cmd := mkcmd "subroutine" "Set the units." [] [("Units", "String")].
Definition T_ENTITY : cmd :=
  mkcmd "datastruct" "Entity." [] [("Idnum", "Long"); ("Name", "String")].
Definition Foo : cmd := mkcmd "unknown" "" [] [].

Definition apidat : apistore :=
  [("GetUnits", GetUnits); ("Foo", Foo); ("SetUnits", SetUnits); ("T_ENTITY", T_ENTITY)].
Definition docdat : list (string * string) :=
  [("GetUnits", "doc G"); ("SetUnits", "doc S"); ("T_ENTITY", "doc T")].

End Demo.

(** ** Auxiliary notions for the properties of the code *)

(** A text made of [\s] characters only. *)
Fixpoint all_space (s : string) : bool :=
  match s with
  | EmptyString => true
  | String c r => is_space c && all_space r
  end.

(** [s] is obtained from [t] by deleting characters. *)
Inductive subseq : string -> string -> Prop :=
| subseq_nil : subseq EmptyString EmptyString
| subseq_skip (c : ascii) (s t : string) : subseq s t -> subseq s (String c t)
| subseq_keep (c : ascii) (s t : string) : subseq s t -> subseq (String c s) (String c t).

(** The command names of the loop that are not skipped as unknown. *)
Definition recognised (apidat : apistore) (names : list string) : list string :=
  filter (fun n => match dict_get n apidat with
                   | Some c => negb (String.eqb (cmdtype c) "unknown")
                   | None => false
                   end) names.

(** The status line printed for one command of the loop. *)
Definition status_line (apidat : apistore) (n : string) : string :=
  match dict_get n apidat with
  | Some c => if String.eqb (cmdtype c) "unknown" then unknown_msg n else wrapping_msg n
  | None => ""
  end.

(** ** Facts about the regex *)

Lemma drop_ws_length (s : string) : String.length (drop_ws s) <= String.length s.
Proof.
  induction s as [|c r IH]; simpl; [lia|].
  destruct (is_space c); simpl; lia.
Qed.

Lemma match_at_length (s r : string) :
  match_at s = Some r -> String.length r + 2 <= String.length s.
Proof.
  unfold match_at. intros H.
  pose proof (drop_ws_length s) as Hs.
  destruct (drop_ws s) as [|c1 r1] eqn:E1; [discriminate|].
  destruct (ascii_dec c1 "("%char); [|discriminate].
  pose proof (drop_ws_length r1) as Hr1.
  destruct (drop_ws r1) as [|c2 r2] eqn:E2; [discriminate|].
  destruct (ascii_dec c2 ")"%char); [|discriminate].
  injection H as <-. pose proof (drop_ws_length r2).
  simpl in Hs, Hr1. lia.
Qed.

Lemma PARMAT_sub_fuel_length (n : nat) (s : string) :
  String.length s <= n ->
  String.length (PARMAT_sub_fuel n s) <= String.length s
  /\ (PARMAT_search s = true ->
      String.length (PARMAT_sub_fuel n s) + 2 <= String.length s).
Proof.
  revert s; induction n as [|f IH]; intros s Hn.
  - destruct s; simpl in *; [split; [lia | discriminate] | lia].
  - simpl. destruct (match_at s) as [rest|] eqn:Em.
    + pose proof (match_at_length _ _ Em).
      destruct (IH rest) as [H1 _]; [lia|]. split; intros; lia.
    + destruct s as [|c r].
      * split; simpl; [lia | discriminate].
      * simpl. destruct (IH r) as [H1 H2]; [simpl in Hn; lia|].
        split; [lia|]. intros Hs.
        unfold PARMAT_search in Hs; rewrite Em in Hs; fold PARMAT_search in Hs.
        specialize (H2 Hs). lia.
Qed.

(** A name that matches loses at least the two parentheses. *)
Lemma PARMAT_sub_shorter (s : string) :
  PARMAT_search s = true -> String.length (PARMAT_sub s) + 2 <= String.length s.
Proof.
  intros H. unfold PARMAT_sub.
  destruct (PARMAT_sub_fuel_length (String.length s) s) as [_ H2]; auto.
Qed.

Lemma newparam_changed (p : string) :
  PARMAT_search p = true -> newparam p <> p.
Proof.
  intros H E. pose proof (PARMAT_sub_shorter p H) as L.
  unfold newparam in E; rewrite H in E. rewrite E in L. lia.
Qed.

(** ** Facts about the return section *)

Section Rendering.

Variable vb2pytype : string -> string.

Lemma render_sig (l : list (string * string)) :
  render_sigits vb2pytype (map (fun it => [fst it; snd it]) l)
  = ok (map (fun it => fst it ++ ": " ++ vb2pytype (snd it)) l).
Proof.
  induction l as [|[n t] r IH]; simpl; [reflexivity|].
  rewrite IH. reflexivity.
Qed.

(** The descriptor-store shape of [returns]: empty, or a name and a type. *)
Definition returns_shape (c : cmd) : Prop :=
  returns c = [] \/ exists n t, returns c = [n; t].

Lemma render_sigits_of (c : cmd) :
  returns_shape c ->
  render_sigits vb2pytype (sigits_of c) = ok (spec_sub_entries vb2pytype c).
Proof.
  intros [Hr | (n & t & Hr)]; unfold sigits_of, spec_sub_entries; rewrite Hr;
    simpl; rewrite render_sig; reflexivity.
Qed.

Lemma sigits_length (c : cmd) :
  returns_shape c ->
  length (sigits_of c) = length (spec_sub_entries vb2pytype c).
Proof.
  intros [Hr | (n & t & Hr)]; unfold sigits_of, spec_sub_entries; rewrite Hr;
    simpl; rewrite !length_map; reflexivity.
Qed.

End Rendering.

(** ** Facts about the loop *)

Lemma dict_get_in {A : Type} (k : string) (d : list (string * A)) (v : A) :
  dict_get k d = Some v -> In k (map fst d).
Proof.
  induction d as [|[k' v'] r IH]; simpl; [discriminate|].
  destruct (string_dec k k'); auto.
Qed.

Section Loop.

Variable vb2pytype : string -> string.
Variable wrap_longlines : string -> option nat -> string -> string.
Variable doc : Type.
Variable fmt_docstr : doc -> string -> string.
Variable STUBDIR : string.
Variable path_join : string -> string -> string.

Let wrap_cmd' := wrap_cmd vb2pytype wrap_longlines doc fmt_docstr STUBDIR path_join.
Let run_loop' := run_loop vb2pytype wrap_longlines doc fmt_docstr STUBDIR path_join.

(** A run that completes has processed every command it iterated over. *)
Lemma run_loop_ok_inv (apidat : apistore) (docdat : list (string * doc))
  (names : list string) (fid log : list string) (out : list string * list string) :
  run_loop' apidat docdat names fid log = ok out ->
  forall n, In n names ->
  exists c, dict_get n apidat = Some c
            /\ (cmdtype c = "unknown" \/ exists ws, wrap_cmd' docdat n c = ok ws).
Proof.
  revert fid log; induction names as [|m rest IH]; intros fid log H n Hin;
    [destruct Hin|].
  unfold run_loop' in H; simpl in H. unfold getitem in H.
  destruct (dict_get m apidat) as [c|] eqn:Ec; [|discriminate]. simpl in H.
  destruct (String.eqb (cmdtype c) "unknown") eqn:Eu.
  - destruct Hin as [<- | Hin].
    + exists c; split; [exact Ec | left; apply String.eqb_eq; exact Eu].
    + exact (IH _ _ H n Hin).
  - destruct (wrap_cmd vb2pytype wrap_longlines doc fmt_docstr STUBDIR path_join docdat m c)
      as [e|ws] eqn:Ew; simpl in H; [discriminate|].
    destruct Hin as [<- | Hin].
    + exists c; split; [exact Ec | right; exists ws; exact Ew].
    + exact (IH _ _ H n Hin).
Qed.

(** The writes of a run are appended after the writes already made. *)
Lemma run_loop_fid_app (apidat : apistore) (docdat : list (string * doc))
  (names : list string) (fid0 fid log : list string) :
  run_loop' apidat docdat names (app fid0 fid) log
  = match run_loop' apidat docdat names fid log with
    | inl e => inl e
    | inr (w, l) => inr (app fid0 w, l)
    end.
Proof.
  revert fid log; induction names as [|m rest IH]; intros fid log;
    unfold run_loop' in *; simpl; [reflexivity|].
  unfold getitem. destruct (dict_get m apidat) as [c|]; simpl; [|reflexivity].
  destruct (String.eqb (cmdtype c) "unknown"); [apply IH|].
  destruct (wrap_cmd vb2pytype wrap_longlines doc fmt_docstr STUBDIR path_join docdat m c);
    simpl; [reflexivity|].
  rewrite <- app_assoc. apply IH.
Qed.

(** [main()] reads [docdat] only through [docdat[cmdname]] (line 162). *)
Lemma wrap_cmd_docdat_ext (docdat docdat' : list (string * doc)) (n : string) (c : cmd) :
  dict_get n docdat' = dict_get n docdat ->
  wrap_cmd' docdat' n c = wrap_cmd' docdat n c.
Proof. intros H. unfold wrap_cmd', wrap_cmd, getitem. rewrite H. reflexivity. Qed.

Lemma wrap_cmd_missing_doc (docdat : list (string * doc)) (n : string) (c : cmd) :
  dict_get n docdat = None -> wrap_cmd' docdat n c = raise (KeyError n).
Proof. intros H. unfold wrap_cmd', wrap_cmd, getitem. rewrite H. reflexivity. Qed.

(** The loop only looks up documentation entries of commands it wraps. *)
Lemma run_loop_docdat_ext (apidat : apistore) (docdat docdat' : list (string * doc))
  (names fid log : list string) :
  (forall n c, In n names -> dict_get n apidat = Some c -> cmdtype c <> "unknown" ->
     dict_get n docdat' = dict_get n docdat) ->
  run_loop' apidat docdat' names fid log = run_loop' apidat docdat names fid log.
Proof.
  revert fid log; induction names as [|n rest IH]; intros fid log H; [reflexivity|].
  unfold run_loop'; cbn [run_loop]. unfold getitem.
  destruct (dict_get n apidat) as [c|] eqn:Ec; simpl; [|reflexivity].
  assert (H' : forall n' c', In n' rest -> dict_get n' apidat = Some c' ->
                 cmdtype c' <> "unknown" -> dict_get n' docdat' = dict_get n' docdat)
    by (intros; apply (H n' c'); simpl; auto).
  destruct (String.eqb (cmdtype c) "unknown") eqn:Eu; [apply IH, H'|].
  pose proof (wrap_cmd_docdat_ext docdat docdat' n c) as Hw.
  unfold wrap_cmd' in Hw.
  rewrite Hw by (apply (H n c); [left; reflexivity | exact Ec | apply String.eqb_neq, Eu]).
  destruct (wrap_cmd vb2pytype wrap_longlines doc fmt_docstr STUBDIR path_join docdat n c);
    simpl; [reflexivity | apply IH, H'].
Qed.

End Loop.

Lemma wrap_cmd_ok_inv {doc : Type} vb2pytype wrap_longlines (fmt_docstr : doc -> string -> string)
  STUBDIR path_join docdat cmdname c ws :
  wrap_cmd vb2pytype wrap_longlines doc fmt_docstr STUBDIR path_join docdat cmdname c = ok ws ->
  (exists d, dict_get cmdname docdat = Some d)
  /\ (exists r, retstr_of vb2pytype cmdname c = ok r).
Proof.
  unfold wrap_cmd, getitem. destruct (dict_get cmdname docdat) as [d|]; simpl;
    [|discriminate].
  destruct (retstr_of vb2pytype cmdname c) as [e|r]; simpl; [discriminate|].
  intros _; split; eauto.
Qed.

Lemma rethdg_nonempty (s : string) : rethdg ++ s <> "".
Proof. discriminate. Qed.

Lemma length_sub_entries vb2pytype (c : cmd) :
  returns_shape c ->
  length (spec_sub_entries vb2pytype c)
  = (match returns c with [] => 0 | _ => 1 end) + length (sig c).
Proof.
  intros [Hr | (n & t & Hr)]; unfold spec_sub_entries; rewrite Hr; simpl;
    rewrite length_map; reflexivity.
Qed.

(** ** The scenarios of the spec, on the concrete collaborators *)

Example GetUnits_scenario :
  arglist_of Demo.GetUnits = ["self"]
  /\ Demo.retstr_of "GetUnits" Demo.GetUnits = ok (rethdg ++ I2 ++ "Units: str" ++ nl).
Proof. split; vm_compute; reflexivity. Qed.

Example SetUnits_scenario :
  Demo.retstr_of "SetUnits" Demo.SetUnits = ok (rethdg ++ I2 ++ "Units: str" ++ nl).
Proof. vm_compute; reflexivity. Qed.

Example T_ENTITY_scenario :
  arglist_of Demo.T_ENTITY = ["self"; "Idnum=None"; "Name=None"]
  /\ Demo.body_of "T_ENTITY" Demo.T_ENTITY
     = app [I2 ++ "dstruct = w32.Record(" ++ dq ++ "T_ENTITY" ++ dq ++ ", self._dobj)" ++ nl]
           (app (app (field_set "Idnum") (field_set "Name")) [I2 ++ "return dstruct" ++ nl]).
Proof. split; vm_compute; reflexivity. Qed.

Example Foo_scenario :
  exists w, Demo.main "2017-01-01 00:00:00" Demo.apidat Demo.docdat
            = ok (w, [nl ++ "Wrapping commands in python...";
                      wrapping_msg "GetUnits"; unknown_msg "Foo";
                      wrapping_msg "SetUnits"; wrapping_msg "T_ENTITY"]).
Proof. eexists. vm_compute. reflexivity. Qed.

(** A function whose [returns] has three elements aborts the run. *)
Example three_returns_abort :
  Demo.main "2017-01-01 00:00:00" [("F", mkcmd "function" "" ["a"; "b"; "c"] [])]
    [("F", "doc")] = inl ValueError.
Proof. vm_compute. reflexivity. Qed.

(** ** Claims *)

(** C1 (amended).  A command of kind unknown needs no documentation entry:
    the run only looks up the entries of commands of the other kinds, so
    entries of unknown commands (present or absent) do not change it.  A
    command of another kind that is missing from the documentation store is
    not tolerated: the lookup [docdat[cmdname]] raises [KeyError cmdname],
    the loop stops there with that error, and the whole run aborts instead
    of emitting a wrapper with empty documentation. *)
Theorem missing_doc_aborts_run vb2pytype wrap_longlines (doc : Type) fmt_docstr
  STUBDIR path_join (TIMENOW : string) (apidat : apistore) (docdat : list (string * doc)) :
  (forall docdat' : list (string * doc),
     (forall n c, dict_get n apidat = Some c -> cmdtype c <> "unknown" ->
        dict_get n docdat' = dict_get n docdat) ->
     main vb2pytype wrap_longlines doc fmt_docstr STUBDIR path_join TIMENOW apidat docdat'
     = main vb2pytype wrap_longlines doc fmt_docstr STUBDIR path_join TIMENOW apidat docdat)
  /\
  (forall (cmdname : string) (c : cmd),
     dict_get cmdname apidat = Some c ->
     cmdtype c <> "unknown" ->
     dict_get cmdname docdat = None ->
     wrap_cmd vb2pytype wrap_longlines doc fmt_docstr STUBDIR path_join docdat cmdname c
       = raise (KeyError cmdname)
     /\ (forall rest fid log,
           run_loop vb2pytype wrap_longlines doc fmt_docstr STUBDIR path_join
             apidat docdat (cmdname :: rest) fid log = raise (KeyError cmdname))
     /\ exists e, main vb2pytype wrap_longlines doc fmt_docstr STUBDIR path_join
                    TIMENOW apidat docdat = inl e).
Proof.
  split.
  - intros docdat' H. unfold main.
    apply run_loop_docdat_ext. intros n c _ Hc Hk. exact (H n c Hc Hk).
  - intros cmdname c Hc Hk Hd.
    assert (Hw : wrap_cmd vb2pytype wrap_longlines doc fmt_docstr STUBDIR path_join
                   docdat cmdname c = raise (KeyError cmdname))
      by (apply wrap_cmd_missing_doc; exact Hd).
    split; [exact Hw|]. split.
    + intros rest fid log. cbn [run_loop]. unfold getitem at 1. rewrite Hc. simpl.
      destruct (String.eqb (cmdtype c) "unknown") eqn:Eu;
        [apply String.eqb_eq in Eu; contradiction|].
      rewrite Hw. reflexivity.
    + destruct (main vb2pytype wrap_longlines doc fmt_docstr STUBDIR path_join
                  TIMENOW apidat docdat) as [e|out] eqn:Em; [eauto|exfalso].
      destruct (run_loop_ok_inv vb2pytype wrap_longlines doc fmt_docstr STUBDIR path_join
                  apidat docdat _ _ _ out Em cmdname (dict_get_in _ _ _ Hc))
        as (c' & Hc' & [Hu | (ws & Hw')]).
      * rewrite Hc in Hc'; injection Hc' as <-. contradiction.
      * rewrite Hc in Hc'; injection Hc' as <-. rewrite Hw in Hw'. discriminate.
Qed.

Lemma missing_doc_aborts_run_witness :
  Demo.main "2017-01-01 00:00:00"
    [("U", mkcmd "unknown" "" [] []); ("GetUnits", Demo.GetUnits)] [("U", "doc")]
  = Demo.main "2017-01-01 00:00:00"
      [("U", mkcmd "unknown" "" [] []); ("GetUnits", Demo.GetUnits)] []
  /\ Demo.wrap_cmd [] "GetUnits" Demo.GetUnits = raise (KeyError "GetUnits")
  /\ Demo.main "2017-01-01 00:00:00"
       [("U", mkcmd "unknown" "" [] []); ("GetUnits", Demo.GetUnits)] []
     = raise (KeyError "GetUnits").
Proof.
  destruct (missing_doc_aborts_run Demo.vb2pytype Demo.wrap_longlines string Demo.fmt_docstr
              Demo.STUBDIR Demo.path_join "2017-01-01 00:00:00"
              [("U", mkcmd "unknown" "" [] []); ("GetUnits", Demo.GetUnits)] [])
    as [Hext Hmiss].
  destruct (Hmiss "GetUnits" Demo.GetUnits) as (Hw & Hl & _);
    [reflexivity | discriminate | reflexivity |].
  split; [|split; [exact Hw|]].
  - apply (Hext [("U", "doc")]). intros n c Hc Hk. simpl in Hc |- *.
    destruct (string_dec n "U") as [->|Hne]; [|reflexivity].
    injection Hc as <-. simpl in Hk. contradiction.
  - transitivity
      (run_loop Demo.vb2pytype Demo.wrap_longlines string Demo.fmt_docstr Demo.STUBDIR
         Demo.path_join [("U", mkcmd "unknown" "" [] []); ("GetUnits", Demo.GetUnits)] []
         ["GetUnits"] [CLASTR "2017-01-01 00:00:00"]
         (app [nl ++ "Wrapping commands in python..."] [unknown_msg "U"]));
      [reflexivity | apply Hl].
Defined.

(** C1 counterexample: [GetUnits] is in the descriptor store and not in the
    documentation store; the run raises [KeyError('GetUnits')]. *)
Lemma missing_doc_keyerror :
  Demo.main "2017-01-01 00:00:00" [("GetUnits", Demo.GetUnits)] []
  = inl (KeyError "GetUnits").
Proof. vm_compute. reflexivity. Qed.

(** C2.  For a subroutine (whose [returns] is empty or a name/type pair, as
    the descriptor store has it) the return section [retstr] is empty
    exactly when there is neither a signature parameter nor a return entry;
    its entries are the explicit return first, then the signature
    parameters in order; one entry is rendered bare, two or more in
    brackets. *)
Theorem subroutine_return_section vb2pytype (cmdname : string) (c : cmd) :
  cmdtype c = "subroutine" ->
  returns_shape c ->
  let entries := spec_sub_entries vb2pytype c in
  exists r, retstr_of vb2pytype cmdname c = ok r
    /\ (r = "" <-> sig c = [] /\ returns c = [])
    /\ length entries = (match returns c with [] => 0 | _ => 1 end) + length (sig c)
    /\ (length entries = 1 -> r = rethdg ++ I2 ++ hd "" entries ++ nl)
    /\ (2 <= length entries ->
        r = rethdg ++ I2 ++ "[" ++ join ", " entries ++ "]" ++ nl).
Proof.
  intros Hty Hs entries.
  assert (E1 : String.eqb (cmdtype c) "function" = false) by (rewrite Hty; reflexivity).
  assert (E2 : String.eqb (cmdtype c) "subroutine" = true) by (rewrite Hty; reflexivity).
  pose proof (length_sub_entries vb2pytype c Hs) as HL.
  unfold retstr_of. rewrite E1, E2.
  rewrite (render_sigits_of vb2pytype c Hs), (sigits_length vb2pytype c Hs). simpl.
  fold entries in HL |- *.
  assert (Hcond : ((0 <? length (sig c)) || (0 <? length (returns c)))%nat
                  = (0 <? length entries)%nat).
  { rewrite HL. destruct Hs as [Hr | (n & t & Hr)]; rewrite Hr; simpl;
      destruct (sig c); reflexivity. }
  rewrite Hcond.
  destruct entries as [|e [|e2 es]] eqn:Ee; simpl.
  - exists ""; split; [reflexivity|]. split; [|split; [exact HL | split; intros; simpl in *; lia]].
    split; [intros _|intros; reflexivity].
    destruct (sig c), (returns c); simpl in HL; split; (reflexivity || lia).
  - eexists; split; [reflexivity|].
    split; [|split; [exact HL | split; intros; simpl in *; [reflexivity | lia]]].
    split; [intros Hx; exfalso; exact (rethdg_nonempty _ Hx)|].
    intros [H1 H2]. rewrite H1, H2 in HL. simpl in HL. lia.
  - eexists; split; [reflexivity|].
    split; [|split; [exact HL | split; intros; simpl in *; [lia | reflexivity]]].
    split; [intros Hx; exfalso; exact (rethdg_nonempty _ Hx)|].
    intros [H1 H2]. rewrite H1, H2 in HL. simpl in HL. lia.
Qed.

Lemma subroutine_return_section_witness :
  exists r, retstr_of Demo.vb2pytype "SetUnits" Demo.SetUnits = ok r
    /\ (r = "" <-> sig Demo.SetUnits = [] /\ returns Demo.SetUnits = [])
    /\ length (spec_sub_entries Demo.vb2pytype Demo.SetUnits) = 1
    /\ (length (spec_sub_entries Demo.vb2pytype Demo.SetUnits) = 1 ->
        r = rethdg ++ I2 ++ hd "" (spec_sub_entries Demo.vb2pytype Demo.SetUnits) ++ nl)
    /\ (2 <= length (spec_sub_entries Demo.vb2pytype Demo.SetUnits) ->
        r = rethdg ++ I2 ++ "["
            ++ join ", " (spec_sub_entries Demo.vb2pytype Demo.SetUnits) ++ "]" ++ nl).
Proof.
  apply (subroutine_return_section Demo.vb2pytype "SetUnits" Demo.SetUnits);
    [reflexivity | left; reflexivity].
Defined.

(** C3.  For a function (whose [returns] is empty or a name/type pair, as
    the descriptor store has it) the return section is emitted exactly when
    [returns] is non-empty, and then holds the single pair
    "name: translated type". *)
Theorem function_return_section vb2pytype (cmdname : string) (c : cmd) :
  cmdtype c = "function" ->
  returns_shape c ->
  exists r, retstr_of vb2pytype cmdname c = ok r
    /\ (r = "" <-> returns c = [])
    /\ (forall n t, returns c = [n; t] ->
        r = rethdg ++ I2 ++ n ++ ": " ++ vb2pytype t ++ nl).
Proof.
  intros Hty Hs.
  assert (E1 : String.eqb (cmdtype c) "function" = true) by (rewrite Hty; reflexivity).
  unfold retstr_of. rewrite E1.
  destruct Hs as [Hr | (n & t & Hr)]; rewrite Hr; simpl.
  - exists ""; split; [reflexivity|]. split; [tauto | discriminate].
  - eexists; split; [reflexivity|]. split.
    + split; [intros Hx; exfalso; exact (rethdg_nonempty _ Hx) | discriminate].
    + intros n' t' E. injection E as <- <-. reflexivity.
Qed.

Lemma function_return_section_witness :
  exists r, retstr_of Demo.vb2pytype "GetUnits" Demo.GetUnits = ok r
    /\ (r = "" <-> returns Demo.GetUnits = [])
    /\ (forall n t, returns Demo.GetUnits = [n; t] ->
        r = rethdg ++ I2 ++ n ++ ": " ++ Demo.vb2pytype t ++ nl).
Proof.
  apply (function_return_section Demo.vb2pytype "GetUnits" Demo.GetUnits);
    [reflexivity | right; exists "Units", "String"; reflexivity].
Defined.

(** C9.  For a function with a non-empty [returns], the unpacking
    [rname, rtype = rlist] raises unless [returns] has exactly two elements;
    hence a run completes only if every such command has a two-element
    [returns]. *)
Theorem function_returns_must_be_pair vb2pytype wrap_longlines (doc : Type) fmt_docstr
  STUBDIR path_join (cmdname : string) (c : cmd) :
  cmdtype c = "function" ->
  returns c <> [] ->
  (length (returns c) <> 2 -> retstr_of vb2pytype cmdname c = raise ValueError)
  /\ (forall TIMENOW (apidat : apistore) (docdat : list (string * doc)) out,
        dict_get cmdname apidat = Some c ->
        main vb2pytype wrap_longlines doc fmt_docstr STUBDIR path_join
          TIMENOW apidat docdat = ok out ->
        length (returns c) = 2).
Proof.
  intros Hty Hne.
  assert (E1 : String.eqb (cmdtype c) "function" = true) by (rewrite Hty; reflexivity).
  assert (Hval : length (returns c) <> 2 -> retstr_of vb2pytype cmdname c = raise ValueError).
  { intros Hl. unfold retstr_of. rewrite E1.
    destruct (returns c) as [|a [|b [|d r]]]; simpl in *;
      [contradiction | reflexivity | lia | reflexivity]. }
  split; [exact Hval|].
  intros TIMENOW apidat docdat out Hc Hm.
  destruct (Nat.eq_dec (length (returns c)) 2) as [Hl|Hl]; [exact Hl|exfalso].
  destruct (run_loop_ok_inv vb2pytype wrap_longlines doc fmt_docstr STUBDIR path_join
              apidat docdat _ _ _ out Hm cmdname (dict_get_in _ _ _ Hc))
    as (c' & Hc' & [Hu | (ws & Hw)]); rewrite Hc in Hc'; injection Hc' as <-.
  - rewrite Hty in Hu; discriminate.
  - destruct (wrap_cmd_ok_inv _ _ _ _ _ _ _ _ _ Hw) as [_ (r & Hr)].
    rewrite (Hval Hl) in Hr; discriminate.
Qed.

Lemma function_returns_must_be_pair_witness :
  (length (returns Demo.GetUnits) <> 2 ->
   retstr_of Demo.vb2pytype "GetUnits" Demo.GetUnits = raise ValueError)
  /\ (forall TIMENOW (apidat : apistore) (docdat : list (string * string)) out,
        dict_get "GetUnits" apidat = Some Demo.GetUnits ->
        Demo.main TIMENOW apidat docdat = ok out ->
        length (returns Demo.GetUnits) = 2).
Proof.
  apply (function_returns_must_be_pair Demo.vb2pytype Demo.wrap_longlines string
           Demo.fmt_docstr Demo.STUBDIR Demo.path_join "GetUnits" Demo.GetUnits);
    [reflexivity | discriminate].
Defined.

(** C4 (code bug).  The "=None" default is withheld from every parameter of
    a datastruct whose normalised name is "self" (here the raw name
    "self"), because [arglist] tests the name instead of skipping the first
    position as the field-set loop [paramlist[1:]] does: the parameter gets
    no default, yet its conditional field set is emitted. *)
Theorem datastruct_self_param_no_default :
  let c := mkcmd "datastruct" "" [] [("self", "Long")] in
  arglist_of c = ["self"; "self"]
  /\ tl (paramlist_of c) = ["self"]
  /\ flat_map field_set (tl (paramlist_of c)) = field_set "self".
Proof. vm_compute. repeat split. Qed.

Lemma join_comma_empty (l : list string) :
  join ", " l = "" <-> l = [] \/ l = [""].
Proof.
  destruct l as [|x [|y r]]; simpl.
  - tauto.
  - split; [intros ->; auto | intros [H|H]; [discriminate | injection H; auto]].
  - split; [destruct x; discriminate | intros [H|H]; discriminate].
Qed.

(** C5.  A raw name that matches [PARMAT] is replaced by [PARMAT.sub('', p)]
    (at least the two parentheses shorter, e.g. "coords()" and "coords ( )"
    become "coords") and annotated "Array-like of "; any other name is kept,
    with an empty annotation.  The normalised names are the ones of the
    [def] line, of the stub call and of the datastruct field sets, and the
    parameter documentation lines carry the annotation; the [def] line has
    one entry per signature parameter after "self", whatever the
    annotations. *)
Theorem array_like_params vb2pytype wrap_longlines STUBDIR path_join
  (cmdname : string) (c : cmd) :
  (forall p, PARMAT_search p = true ->
     newparam p = PARMAT_sub p /\ annot p = "Array-like of "
     /\ String.length (newparam p) + 2 <= String.length p)
  /\ (forall p, PARMAT_search p = false -> newparam p = p /\ annot p = "")
  /\ newparam "coords()" = "coords" /\ newparam "coords ( )" = "coords"
  /\ annot "coords ( )" = "Array-like of "
  /\ tl (paramlist_of c) = map (fun it => newparam (fst it)) (sig c)
  /\ length (arglist_of c) = S (length (sig c))
  /\ param_doc_of vb2pytype c
     = (if Nat.ltb 0 (length (sig c))
        then app [I2 ++ "Parameters" ++ nl; I2 ++ "----------" ++ nl]
                 (map (fun it => I2 ++ newparam (fst it) ++ ": " ++ annot (fst it)
                                 ++ vb2pytype (snd it) ++ nl) (sig c))
        else [])
  /\ (cmdtype c = "datastruct" ->
      body_of wrap_longlines STUBDIR path_join cmdname c
      = app [I2 ++ "dstruct = w32.Record(" ++ dq ++ cmdname ++ dq ++ ", self._dobj)" ++ nl]
            (app (flat_map field_set (map (fun it => newparam (fst it)) (sig c)))
                 [I2 ++ "return dstruct" ++ nl])).
Proof.
  assert (Htl : tl (paramlist_of c) = map (fun it => newparam (fst it)) (sig c)).
  { unfold paramlist_of, params_of. simpl. rewrite map_map. reflexivity. }
  split; [intros p H; unfold newparam, annot; rewrite H;
          split; [reflexivity | split; [reflexivity | apply (PARMAT_sub_shorter p H)]]|].
  split; [intros p H; unfold newparam, annot; rewrite H; split; reflexivity|].
  split; [vm_compute; reflexivity|]. split; [vm_compute; reflexivity|].
  split; [vm_compute; reflexivity|].
  split; [exact Htl|].
  split; [unfold arglist_of, paramlist_of, params_of; rewrite !length_map; simpl;
          rewrite length_map; reflexivity|].
  split; [unfold param_doc_of, params_of; simpl; rewrite length_map; reflexivity|].
  intros Hty.
  assert (E : String.eqb (cmdtype c) "datastruct" = true) by (rewrite Hty; reflexivity).
  unfold body_of. rewrite E, Htl. reflexivity.
Qed.

(** C6.  A command of kind unknown writes nothing to [fid], adds exactly
    one notice naming it to the status stream, and the loop goes on with
    the remaining commands. *)
Theorem unknown_command_skipped vb2pytype wrap_longlines (doc : Type) fmt_docstr
  STUBDIR path_join (apidat : apistore) (docdat : list (string * doc))
  (cmdname : string) (c : cmd) (rest fid log : list string) :
  dict_get cmdname apidat = Some c ->
  cmdtype c = "unknown" ->
  run_loop vb2pytype wrap_longlines doc fmt_docstr STUBDIR path_join
    apidat docdat (cmdname :: rest) fid log
  = run_loop vb2pytype wrap_longlines doc fmt_docstr STUBDIR path_join
      apidat docdat rest fid (app log [unknown_msg cmdname])
  /\ unknown_msg cmdname = "... unknown command: " ++ cmdname ++ ". SKIPPING".
Proof.
  intros Hc Hty. split; [|reflexivity].
  simpl. unfold getitem. rewrite Hc. simpl. rewrite Hty. reflexivity.
Qed.

Lemma unknown_command_skipped_witness :
  run_loop Demo.vb2pytype Demo.wrap_longlines string Demo.fmt_docstr Demo.STUBDIR
    Demo.path_join Demo.apidat Demo.docdat ["Foo"; "SetUnits"] [] []
  = run_loop Demo.vb2pytype Demo.wrap_longlines string Demo.fmt_docstr Demo.STUBDIR
      Demo.path_join Demo.apidat Demo.docdat ["SetUnits"] [] (app [] [unknown_msg "Foo"])
  /\ unknown_msg "Foo" = "... unknown command: " ++ "Foo" ++ ". SKIPPING".
Proof.
  apply (unknown_command_skipped _ _ _ _ _ _ Demo.apidat Demo.docdat "Foo" Demo.Foo);
    reflexivity.
Defined.

(** C7 (amended).  For a function or subroutine (any kind but datastruct),
    the stub call gets the layout of the comma-joined normalised parameter
    names, in signature order, unless that text is empty; it is empty for a
    signature without parameters and also for a single parameter whose
    whole name is the array marker (such as "()"), and a placeholder [None]
    is passed then.  The call never has an empty argument list.  (The line
    wrapper is assumed to map exactly the empty text to the empty text.) *)
Theorem stub_call_arguments wrap_longlines STUBDIR path_join
  (cmdname : string) (c : cmd) :
  (forall s, wrap_longlines s (Some 50) indent12 = "" <-> s = "") ->
  cmdtype c <> "datastruct" ->
  let names := map (fun it => newparam (fst it)) (sig c) in
  body_of wrap_longlines STUBDIR path_join cmdname c
  = [I2 ++ "lib = self._dobj.CreateLib(r" ++ dq ++ path_join STUBDIR (cmdname ++ ".frs")
        ++ dq ++ ")" ++ nl;
     I2 ++ "return lib.libfunct(" ++ paramstr_of wrap_longlines c ++ ")" ++ nl]
  /\ (names = [] \/ names = [""] -> paramstr_of wrap_longlines c = "None")
  /\ (~ (names = [] \/ names = [""]) ->
      paramstr_of wrap_longlines c = wrap_longlines (join ", " names) (Some 50) indent12)
  /\ (sig c = [] -> paramstr_of wrap_longlines c = "None")
  /\ paramstr_of wrap_longlines c <> "".
Proof.
  intros Hw Hty names.
  assert (E : String.eqb (cmdtype c) "datastruct" = false)
    by (apply String.eqb_neq; exact Hty).
  assert (Htl : tl (paramlist_of c) = names).
  { unfold names, paramlist_of, params_of. simpl. rewrite map_map. reflexivity. }
  assert (Hp : paramstr_of wrap_longlines c
               = if String.eqb (join ", " names) "" then "None"
                 else wrap_longlines (join ", " names) (Some 50) indent12).
  { unfold paramstr_of. cbv zeta. rewrite Htl.
    destruct (String.eqb (join ", " names) "") eqn:Ej.
    - apply String.eqb_eq in Ej. rewrite Ej.
      assert (H0 : wrap_longlines "" (Some 50) indent12 = "") by (apply Hw; reflexivity).
      rewrite H0. reflexivity.
    - apply String.eqb_neq in Ej.
      destruct (String.eqb (wrap_longlines (join ", " names) (Some 50) indent12) "") eqn:Ew;
        [exfalso; apply Ej, Hw, String.eqb_eq, Ew | reflexivity]. }
  split; [unfold body_of; rewrite E; reflexivity|].
  split; [intros H; rewrite Hp; apply join_comma_empty in H; rewrite H; reflexivity|].
  split; [intros H; rewrite Hp;
          destruct (String.eqb (join ", " names) "") eqn:Ej; [|reflexivity];
          apply String.eqb_eq, join_comma_empty in Ej; contradiction|].
  split; [intros H; rewrite Hp; unfold names; rewrite H; reflexivity|].
  rewrite Hp. destruct (String.eqb (join ", " names) "") eqn:Ej; [discriminate|].
  intros H. apply (proj1 (Hw _)) in H. apply String.eqb_neq in Ej. exact (Ej H).
Qed.

Lemma stub_call_arguments_witness :
  let c := mkcmd "subroutine" "" [] [("()", "Long")] in
  (forall s, Demo.wrap_longlines s (Some 50) indent12 = "" <-> s = "") /\
  body_of Demo.wrap_longlines Demo.STUBDIR Demo.path_join "Cmd" c
  = [I2 ++ "lib = self._dobj.CreateLib(r" ++ dq ++ Demo.path_join Demo.STUBDIR ("Cmd" ++ ".frs")
        ++ dq ++ ")" ++ nl;
     I2 ++ "return lib.libfunct(" ++ paramstr_of Demo.wrap_longlines c ++ ")" ++ nl]
  /\ (map (fun it => newparam (fst it)) (sig c) = []
      \/ map (fun it => newparam (fst it)) (sig c) = [""] ->
      paramstr_of Demo.wrap_longlines c = "None")
  /\ (~ (map (fun it => newparam (fst it)) (sig c) = []
         \/ map (fun it => newparam (fst it)) (sig c) = [""]) ->
      paramstr_of Demo.wrap_longlines c
      = Demo.wrap_longlines (join ", " (map (fun it => newparam (fst it)) (sig c)))
          (Some 50) indent12)
  /\ (sig c = [] -> paramstr_of Demo.wrap_longlines c = "None")
  /\ paramstr_of Demo.wrap_longlines c <> "".
Proof.
  intros c.
  assert (Hw : forall s, Demo.wrap_longlines s (Some 50) indent12 = "" <-> s = "")
    by (intros s; reflexivity).
  split; [exact Hw|].
  apply (stub_call_arguments Demo.wrap_longlines Demo.STUBDIR Demo.path_join
           "Cmd" c Hw); discriminate.
Defined.

(** C7 counterexample: a subroutine whose signature is not empty (one
    parameter named "()") has the normalised parameter list [""], yet the
    stub is called with the placeholder [None] and not with that list. *)
Lemma stub_call_placeholder_nonempty_sig :
  let c := mkcmd "subroutine" "" [] [("()", "Long")] in
  sig c <> []
  /\ tl (paramlist_of c) = [""]
  /\ paramstr_of Demo.wrap_longlines c = "None"
  /\ paramstr_of Demo.wrap_longlines c <> join ", " (tl (paramlist_of c)).
Proof. vm_compute. split; [discriminate|]. split; [reflexivity|].
  split; [reflexivity | discriminate]. Qed.

(** C8.  Two runs over the same stores (the same dicts, iterated in the
    same order) either raise the same error or both complete with the same
    status lines and the same writes, except the first write, the class
    header [CLASTR]; that header is a fixed text around the timestamp. *)
Theorem output_differs_only_in_timestamp vb2pytype wrap_longlines (doc : Type) fmt_docstr
  STUBDIR path_join (apidat : apistore) (docdat : list (string * doc))
  (TIMENOW1 TIMENOW2 : string) :
  match main vb2pytype wrap_longlines doc fmt_docstr STUBDIR path_join TIMENOW1 apidat docdat,
        main vb2pytype wrap_longlines doc fmt_docstr STUBDIR path_join TIMENOW2 apidat docdat
  with
  | inr (w1, l1), inr (w2, l2) =>
      w1 = CLASTR TIMENOW1 :: tl w1 /\ w2 = CLASTR TIMENOW2 :: tl w2
      /\ tl w1 = tl w2 /\ l1 = l2
  | inl e1, inl e2 => e1 = e2
  | _, _ => False
  end
  /\ exists pre post, forall TIMENOW, CLASTR TIMENOW = pre ++ TIMENOW ++ post.
Proof.
  split.
  - unfold main.
    rewrite <- (app_nil_r [CLASTR TIMENOW1]), <- (app_nil_r [CLASTR TIMENOW2]).
    rewrite !run_loop_fid_app.
    destruct (run_loop vb2pytype wrap_longlines doc fmt_docstr STUBDIR path_join
                apidat docdat (map fst apidat) [] [nl ++ "Wrapping commands in python..."])
      as [e|[w l]]; simpl; auto.
  - exists CLASTR_head, CLASTR_tail; intros TIMENOW; reflexivity.
Qed.

Lemma arglist_not_datastruct (c : cmd) :
  String.eqb (cmdtype c) "datastruct" = false -> arglist_of c = paramlist_of c.
Proof.
  intros E. unfold arglist_of. rewrite E.
  rewrite <- (map_id (paramlist_of c)) at 2. apply map_ext. intros; reflexivity.
Qed.

(** C10.  For a subroutine with at least one signature parameter (and a
    [returns] that is empty or a pair), the return section lists the raw
    signature names, while the [def] line and the parameter documentation
    use the normalised ones: a parameter matching [PARMAT] keeps its marker
    in the return section only. *)
Theorem subroutine_returns_raw_names vb2pytype (cmdname : string) (c : cmd) :
  cmdtype c = "subroutine" ->
  returns_shape c ->
  sig c <> [] ->
  let entries := spec_sub_entries vb2pytype c in
  retstr_of vb2pytype cmdname c
  = ok (rethdg ++ I2 ++ (if Nat.ltb 1 (length entries) then "[" else "")
        ++ join ", " entries ++ (if Nat.ltb 1 (length entries) then "]" else "") ++ nl)
  /\ forall p t, In (p, t) (sig c) ->
     In (p ++ ": " ++ vb2pytype t) entries
     /\ In (newparam p) (tl (arglist_of c))
     /\ In (I2 ++ newparam p ++ ": " ++ annot p ++ vb2pytype t ++ nl) (param_doc_of vb2pytype c)
     /\ (PARMAT_search p = true -> newparam p <> p /\ annot p = "Array-like of ").
Proof.
  intros Hty Hs Hne entries.
  assert (E1 : String.eqb (cmdtype c) "function" = false) by (rewrite Hty; reflexivity).
  assert (E2 : String.eqb (cmdtype c) "subroutine" = true) by (rewrite Hty; reflexivity).
  assert (E3 : String.eqb (cmdtype c) "datastruct" = false) by (rewrite Hty; reflexivity).
  split.
  - unfold retstr_of. rewrite E1, E2.
    rewrite (render_sigits_of vb2pytype c Hs), (sigits_length vb2pytype c Hs).
    destruct (sig c) as [|it r]; [contradiction|]. reflexivity.
  - intros p t Hin. split; [|split; [|split]].
    + unfold entries, spec_sub_entries. apply in_or_app. right.
      apply (in_map (fun it => fst it ++ ": " ++ vb2pytype (snd it)) _ _ Hin).
    + rewrite (arglist_not_datastruct c E3). unfold paramlist_of, params_of. simpl.
      rewrite map_map. apply (in_map (fun it => newparam (fst it)) _ _ Hin).
    + unfold param_doc_of.
      assert (Hl : Nat.ltb 0 (length (tl ("self" :: params_of c))) = true).
      { unfold params_of; simpl; rewrite length_map.
        destruct (sig c); [contradiction | reflexivity]. }
      rewrite Hl. apply in_or_app. right. apply (in_map (param_line vb2pytype) _ _ Hin).
    + intros Hm. split; [apply newparam_changed, Hm | unfold annot; rewrite Hm; reflexivity].
Qed.

Lemma subroutine_returns_raw_names_witness :
  let c := mkcmd "subroutine" "" [] [("coords()", "Double")] in
  retstr_of Demo.vb2pytype "GetCoords" c
  = ok (rethdg ++ I2 ++ "coords(): float" ++ nl)
  /\ newparam "coords()" = "coords".
Proof.
  intros c.
  destruct (subroutine_returns_raw_names Demo.vb2pytype "GetCoords" c)
    as [Hr _]; [reflexivity | left; reflexivity | discriminate |].
  split; [rewrite Hr; reflexivity | vm_compute; reflexivity].
Defined.

(** ** Further properties of the code *)

Lemma drop_ws_split (s : string) :
  exists w, all_space w = true /\ s = w ++ drop_ws s.
Proof.
  induction s as [|c r (w & Hw & Hr)]; simpl.
  - exists ""; auto.
  - destruct (is_space c) eqn:Ec.
    + exists (String c w); simpl; rewrite Ec, Hw; split; [reflexivity|].
      rewrite <- Hr; reflexivity.
    + exists ""; auto.
Qed.

Lemma drop_ws_spaces (w s : string) :
  all_space w = true -> drop_ws (w ++ s) = drop_ws s.
Proof.
  induction w as [|c r IH]; simpl; [reflexivity|].
  intros H. apply andb_prop in H as [Hc Hr]. rewrite Hc. apply IH, Hr.
Qed.

Lemma PARMAT_search_app (a t : string) :
  PARMAT_search t = true -> PARMAT_search (a ++ t) = true.
Proof.
  induction a as [|c r IH]; simpl; [auto|].
  intros H. destruct (match_at (String c (r ++ t))); [reflexivity | apply IH, H].
Qed.

Lemma string_app_assoc (a b c : string) : (a ++ b) ++ c = a ++ (b ++ c).
Proof. induction a; simpl; [reflexivity | rewrite IHa; reflexivity]. Qed.

Lemma match_at_suffix (s r : string) :
  match_at s = Some r -> exists pre, s = pre ++ r.
Proof.
  unfold match_at. intros H.
  destruct (drop_ws_split s) as (w0 & _ & E0).
  destruct (drop_ws s) as [|c1 r1] eqn:E1; [discriminate|].
  destruct (ascii_dec c1 "("%char); [|discriminate].
  destruct (drop_ws_split r1) as (w1 & _ & E1').
  destruct (drop_ws r1) as [|c2 r2] eqn:E2; [discriminate|].
  destruct (ascii_dec c2 ")"%char); [|discriminate].
  injection H as <-.
  destruct (drop_ws_split r2) as (w2 & _ & E2').
  exists (w0 ++ String c1 (w1 ++ String c2 w2)).
  rewrite E0, E1'. set (t := drop_ws r2) in *. rewrite E2'.
  rewrite string_app_assoc. simpl. rewrite string_app_assoc. reflexivity.
Qed.

Lemma subseq_refl (s : string) : subseq s s.
Proof. induction s; [apply subseq_nil | apply subseq_keep; exact IHs]. Qed.

Lemma subseq_prefix (x pre r : string) : subseq x r -> subseq x (pre ++ r).
Proof. induction pre; simpl; intros; [auto | apply subseq_skip; auto]. Qed.

(** X1.  A raw name in which [PARMAT] finds no match is left unchanged by
    [PARMAT.sub('', p)], so the two branches of the normalisation agree
    there. *)
Theorem PARMAT_sub_no_match (p : string) :
  PARMAT_search p = false -> PARMAT_sub p = p.
Proof.
  unfold PARMAT_sub. generalize (String.length p) as n. revert p.
  intros p n; revert p; induction n as [|f IH]; intros p H; simpl; [reflexivity|].
  destruct p as [|c r]; simpl in *.
  - reflexivity.
  - destruct (match_at (String c r)); [discriminate|].
    rewrite (IH r H). reflexivity.
Qed.

Lemma PARMAT_sub_no_match_witness :
  PARMAT_sub "coords" = "coords".
Proof. apply PARMAT_sub_no_match. reflexivity. Defined.

(** X2.  Normalisation only deletes characters: a normalised parameter name
    is a subsequence of its raw name (never longer, nothing added or
    reordered). *)
Theorem newparam_subseq (p : string) : subseq (newparam p) p.
Proof.
  unfold newparam. destruct (PARMAT_search p); [|apply subseq_refl].
  unfold PARMAT_sub. generalize (String.length p) as n. intros n; revert p.
  induction n as [|f IH]; intros p; simpl; [apply subseq_refl|].
  destruct (match_at p) as [rest|] eqn:Em.
  - destruct (match_at_suffix _ _ Em) as (pre & ->). apply subseq_prefix, IH.
  - destruct p as [|c r]; [constructor | constructor; apply IH].
Qed.

(** X3.  [PARMAT] finds a match in a name exactly when the name contains an
    opening parenthesis followed, after whitespace only, by a closing one;
    the surrounding [\s*] of the pattern never decides a match. *)
Theorem PARMAT_search_iff (s : string) :
  PARMAT_search s = true <->
  exists a w b, all_space w = true /\ s = a ++ String "("%char (w ++ String ")"%char b).
Proof.
  split.
  - induction s as [|c r IH]; intros H.
    + discriminate.
    + simpl in H. destruct (match_at (String c r)) as [rest|] eqn:Em.
      * unfold match_at in Em.
        destruct (drop_ws_split (String c r)) as (w0 & Hw0 & E0).
        destruct (drop_ws (String c r)) as [|c1 r1]; [discriminate|].
        destruct (ascii_dec c1 "("%char) as [->|]; [|discriminate].
        destruct (drop_ws_split r1) as (w1 & Hw1 & E1).
        destruct (drop_ws r1) as [|c2 r2]; [discriminate|].
        destruct (ascii_dec c2 ")"%char) as [->|]; [|discriminate].
        exists w0, w1, r2. split; [exact Hw1|]. rewrite E0, E1. reflexivity.
      * destruct (IH H) as (a & w & b & Hw & ->).
        exists (String c a), w, b. auto.
  - intros (a & w & b & Hw & ->). apply PARMAT_search_app.
    simpl. unfold match_at. simpl. rewrite (drop_ws_spaces _ _ Hw). simpl.
    reflexivity.
Qed.

Lemma dict_get_of_in {A : Type} (k : string) (d : list (string * A)) :
  In k (map fst d) -> exists v, dict_get k d = Some v.
Proof.
  induction d as [|[k' v'] r IH]; simpl; [tauto|].
  intros [E | H]; destruct (string_dec k k') as [|Hne]; eauto.
  subst; contradiction.
Qed.

Lemma render_sigits_error vb2pytype (l : list (list string)) (e : pyerr) :
  render_sigits vb2pytype l = inl e -> e = ValueError.
Proof.
  induction l as [|it r IH]; simpl; [discriminate|].
  destruct (unpack2 it) as [e'|p] eqn:Eu; simpl.
  - unfold unpack2 in Eu. destruct it as [|a [|b [|x y]]]; try discriminate;
      injection Eu as <-; intros H; injection H as <-; reflexivity.
  - destruct (render_sigits vb2pytype r); simpl; [|discriminate].
    intros H; injection H as <-; apply IH; reflexivity.
Qed.

Lemma retstr_of_error vb2pytype (cmdname : string) (c : cmd) (e : pyerr) :
  retstr_of vb2pytype cmdname c = inl e -> e = ValueError.
Proof.
  unfold retstr_of.
  destruct (String.eqb (cmdtype c) "function").
  - destruct (returns c) as [|a [|b [|x y]]]; simpl; try discriminate;
      intros H; injection H as <-; reflexivity.
  - destruct (String.eqb (cmdtype c) "subroutine").
    + destruct (_ || _); [|discriminate].
      destruct (render_sigits vb2pytype (sigits_of c)) as [e'|] eqn:Er; simpl;
        [|discriminate].
      intros H; injection H as <-. exact (render_sigits_error _ _ _ Er).
    + destruct (String.eqb (cmdtype c) "datastruct"); discriminate.
Qed.

Lemma wrap_cmd_error {doc : Type} vb2pytype wrap_longlines (fmt_docstr : doc -> string -> string)
  STUBDIR path_join docdat cmdname c e :
  wrap_cmd vb2pytype wrap_longlines doc fmt_docstr STUBDIR path_join docdat cmdname c = inl e ->
  (dict_get cmdname docdat = None /\ e = KeyError cmdname) \/ e = ValueError.
Proof.
  unfold wrap_cmd, getitem. destruct (dict_get cmdname docdat) as [d|]; simpl.
  - destruct (retstr_of vb2pytype cmdname c) as [e'|r] eqn:Er; simpl; [|discriminate].
    intros H; injection H as <-. right. exact (retstr_of_error _ _ _ _ Er).
  - intros H; injection H as <-. left; auto.
Qed.

Lemma wrap_cmd_ok_of {doc : Type} vb2pytype wrap_longlines (fmt_docstr : doc -> string -> string)
  STUBDIR path_join docdat cmdname c d r :
  dict_get cmdname docdat = Some d -> retstr_of vb2pytype cmdname c = ok r ->
  exists ws, wrap_cmd vb2pytype wrap_longlines doc fmt_docstr STUBDIR path_join
               docdat cmdname c = ok ws /\ hd_error ws = Some separator.
Proof.
  intros Hd Hr. unfold wrap_cmd, getitem. rewrite Hd. simpl. rewrite Hr. simpl.
  eexists; split; reflexivity.
Qed.

Section LoopProperties.

Variable vb2pytype : string -> string.
Variable wrap_longlines : string -> option nat -> string -> string.
Variable doc : Type.
Variable fmt_docstr : doc -> string -> string.
Variable STUBDIR : string.
Variable path_join : string -> string -> string.

Let run_loop' := run_loop vb2pytype wrap_longlines doc fmt_docstr STUBDIR path_join.
Let wrap_cmd' := wrap_cmd vb2pytype wrap_longlines doc fmt_docstr STUBDIR path_join.
Let main' := main vb2pytype wrap_longlines doc fmt_docstr STUBDIR path_join.

Lemma run_loop_cons (apidat : apistore) docdat n rest fid log :
  run_loop' apidat docdat (n :: rest) fid log
  = c <- getitem apidat n ;;
    if String.eqb (cmdtype c) "unknown" then
      run_loop' apidat docdat rest fid (app log [unknown_msg n])
    else
      ws <- wrap_cmd' docdat n c ;;
      run_loop' apidat docdat rest (app fid ws) (app log [wrapping_msg n]).
Proof. reflexivity. Qed.

(** X5.  A run completes exactly when every command that is not of kind
    unknown has a documentation entry and a return section that can be
    rendered (no failing tuple unpacking); unknown commands impose
    nothing. *)
Theorem main_ok_iff (TIMENOW : string) (apidat : apistore) (docdat : list (string * doc)) :
  (exists out, main' TIMENOW apidat docdat = ok out) <->
  (forall n c, dict_get n apidat = Some c -> cmdtype c <> "unknown" ->
     (exists d, dict_get n docdat = Some d)
     /\ exists r, retstr_of vb2pytype n c = ok r).
Proof.
  split.
  - intros (out & Hm) n c Hc Hk.
    destruct (run_loop_ok_inv vb2pytype wrap_longlines doc fmt_docstr STUBDIR path_join
                apidat docdat _ _ _ out Hm n (dict_get_in _ _ _ Hc))
      as (c' & Hc' & [Hu | (ws & Hw)]); rewrite Hc in Hc'; injection Hc' as <-;
      [contradiction|].
    exact (wrap_cmd_ok_inv _ _ _ _ _ _ _ _ _ Hw).
  - intros H. unfold main'. unfold main.
    assert (Hkeys : forall n, In n (map fst apidat) -> exists c, dict_get n apidat = Some c)
      by (intros n; apply dict_get_of_in).
    revert Hkeys. generalize (map fst apidat) as names. intros names Hkeys.
    generalize [CLASTR TIMENOW] as fid. generalize [nl ++ "Wrapping commands in python..."] as log.
    revert Hkeys.
    induction names as [|n rest IH]; intros Hkeys log fid; [eexists; reflexivity|].
    change (exists out, run_loop' apidat docdat (n :: rest) fid log = ok out).
    rewrite run_loop_cons.
    destruct (Hkeys n (or_introl eq_refl)) as (c & Hc).
    unfold getitem. rewrite Hc. simpl.
    assert (IH' : forall log fid, exists out, run_loop' apidat docdat rest fid log = ok out)
      by (apply IH; intros m Hm; apply Hkeys; right; exact Hm).
    destruct (String.eqb (cmdtype c) "unknown") eqn:Eu; [apply IH'|].
    apply String.eqb_neq in Eu.
    destruct (H n c Hc Eu) as ((d & Hd) & (r & Hr)).
    destruct (wrap_cmd_ok_of vb2pytype wrap_longlines fmt_docstr STUBDIR path_join
                docdat n c d r Hd Hr) as (ws & Hw & _).
    unfold wrap_cmd'. rewrite Hw. simpl. apply IH'.
Qed.

(** X6.  A run that fails raises either the [KeyError] of a command (not of
    kind unknown) missing from the documentation store, or the
    [ValueError] of a tuple unpacking; the lookups in the descriptor store
    never fail, as the loop runs over its own keys. *)
Theorem main_errors (TIMENOW : string) (apidat : apistore) (docdat : list (string * doc))
  (e : pyerr) :
  main' TIMENOW apidat docdat = inl e ->
  (exists n c, dict_get n apidat = Some c /\ cmdtype c <> "unknown"
               /\ dict_get n docdat = None /\ e = KeyError n)
  \/ e = ValueError.
Proof.
  unfold main', main.
  assert (Hkeys : forall n, In n (map fst apidat) -> exists c, dict_get n apidat = Some c)
    by (intros n; apply dict_get_of_in).
  revert Hkeys. generalize (map fst apidat) as names. intros names Hkeys.
  generalize [CLASTR TIMENOW] as fid. generalize [nl ++ "Wrapping commands in python..."] as log.
  revert Hkeys.
  induction names as [|n rest IH]; intros Hkeys log fid; [discriminate|].
  cbn [run_loop].
  destruct (Hkeys n (or_introl eq_refl)) as (c & Hc).
  unfold getitem. rewrite Hc. simpl.
  assert (Hk' : forall m, In m rest -> exists c, dict_get m apidat = Some c)
    by (intros m Hm; apply Hkeys; right; exact Hm).
  destruct (String.eqb (cmdtype c) "unknown") eqn:Eu; [apply IH, Hk'|].
  destruct (wrap_cmd vb2pytype wrap_longlines doc fmt_docstr STUBDIR path_join docdat n c) as [e'|ws] eqn:Ew; simpl; [|apply IH, Hk'].
  intros H; injection H as <-.
  destruct (wrap_cmd_error _ _ _ _ _ _ _ _ _ Ew) as [(Hd & ->) | ->]; [left | right; auto].
  exists n, c. repeat split; auto. apply String.eqb_neq, Eu.
Qed.

(** X7.  The status stream of a completed run is the heading followed by
    one line per command of the store, in iteration order: a skip notice
    for an unknown command, a "wrapping" line for every other one. *)
Theorem main_status_lines (TIMENOW : string) (apidat : apistore)
  (docdat : list (string * doc)) (w l : list string) :
  main' TIMENOW apidat docdat = ok (w, l) ->
  l = (nl ++ "Wrapping commands in python...") :: map (status_line apidat) (map fst apidat).
Proof.
  unfold main', main.
  change ((nl ++ "Wrapping commands in python...") :: map (status_line apidat) (map fst apidat))
    with (app [nl ++ "Wrapping commands in python..."] (map (status_line apidat) (map fst apidat))).
  generalize (map fst apidat) as names. intros names.
  generalize [CLASTR TIMENOW] as fid. generalize [nl ++ "Wrapping commands in python..."] as log.
  induction names as [|n rest IH]; intros log fid.
  - intros H; injection H as _ <-. rewrite app_nil_r. reflexivity.
  - idtac.
    cbn [run_loop]. unfold getitem.
    destruct (dict_get n apidat) as [c|] eqn:Hc; simpl; [|discriminate].
    unfold status_line at 1. rewrite Hc.
    destruct (String.eqb (cmdtype c) "unknown").
    + intros H. rewrite (IH _ _ H), <- app_assoc. reflexivity.
    + destruct (wrap_cmd vb2pytype wrap_longlines doc fmt_docstr STUBDIR path_join docdat n c); simpl; [discriminate|].
      intros H. rewrite (IH _ _ H), <- app_assoc. reflexivity.
Qed.

Lemma wrap_cmd_ok_hd docdat cmdname c ws :
  wrap_cmd' docdat cmdname c = ok ws -> hd_error ws = Some separator.
Proof.
  intros Hw. destruct (wrap_cmd_ok_inv _ _ _ _ _ _ _ _ _ Hw) as ((d & Hd) & (r & Hr)).
  destruct (wrap_cmd_ok_of vb2pytype wrap_longlines fmt_docstr STUBDIR path_join
              docdat cmdname c d r Hd Hr) as (ws' & Hw' & Hh).
  unfold wrap_cmd' in Hw. rewrite Hw in Hw'. injection Hw' as ->. exact Hh.
Qed.

Lemma run_loop_output_shape (apidat : apistore) (docdat : list (string * doc))
  (names : list string) (fid log w l : list string) :
  run_loop' apidat docdat names fid log = ok (w, l) ->
  exists wss,
    Forall2 (fun n ws => exists c, dict_get n apidat = Some c
                                   /\ wrap_cmd' docdat n c = ok ws
                                   /\ hd_error ws = Some separator)
            (recognised apidat names) wss
    /\ w = app fid (concat wss).
Proof.
  revert fid log; induction names as [|n rest IH]; intros fid log.
  - intros H; injection H as <- _. exists []. split; [constructor | simpl; rewrite app_nil_r; reflexivity].
  - unfold run_loop'. cbn [run_loop]. unfold getitem.
    destruct (dict_get n apidat) as [c|] eqn:Hc; simpl; [|discriminate].
    unfold recognised; simpl; rewrite Hc; fold (recognised apidat rest).
    destruct (String.eqb (cmdtype c) "unknown"); simpl.
    + intros H. exact (IH _ _ H).
    + destruct (wrap_cmd vb2pytype wrap_longlines doc fmt_docstr STUBDIR path_join docdat n c)
        as [e|ws] eqn:Ew; simpl; [discriminate|].
      intros H. destruct (IH _ _ H) as (wss & Hf & ->).
      exists (ws :: wss). split.
      * constructor; [|exact Hf].
        exists c; split; [exact Hc | split; [exact Ew | apply (wrap_cmd_ok_hd _ _ _ _ Ew)]].
      * simpl. rewrite app_assoc. reflexivity.
Qed.

(** X8.  The output of a completed run is the class header followed by the
    wrappers of the commands not of kind unknown, one per command, in
    iteration order; each wrapper is the output of that command and begins
    with the section separator. *)
Theorem main_output_shape (TIMENOW : string) (apidat : apistore)
  (docdat : list (string * doc)) (w l : list string) :
  main' TIMENOW apidat docdat = ok (w, l) ->
  exists wss,
    Forall2 (fun n ws => exists c, dict_get n apidat = Some c
                                   /\ wrap_cmd' docdat n c = ok ws
                                   /\ hd_error ws = Some separator)
            (recognised apidat (map fst apidat)) wss
    /\ w = CLASTR TIMENOW :: concat wss.
Proof.
  intros H. exact (run_loop_output_shape apidat docdat _ _ _ _ _ H).
Qed.

End LoopProperties.

(** X9.  A subroutine whose [returns] is non-empty but not a name/type pair
    makes the unpacking [for rn, rt in sigits] raise [ValueError], whatever
    its signature. *)
Theorem subroutine_bad_returns vb2pytype (cmdname : string) (c : cmd) :
  cmdtype c = "subroutine" ->
  returns c <> [] ->
  length (returns c) <> 2 ->
  retstr_of vb2pytype cmdname c = raise ValueError.
Proof.
  intros Hty Hne Hl.
  assert (E1 : String.eqb (cmdtype c) "function" = false) by (rewrite Hty; reflexivity).
  assert (E2 : String.eqb (cmdtype c) "subroutine" = true) by (rewrite Hty; reflexivity).
  unfold retstr_of, sigits_of. rewrite E1, E2.
  destruct (returns c) as [|a [|b [|x y]]]; [contradiction | | simpl in Hl; lia |];
    rewrite orb_true_r; reflexivity.
Qed.

Lemma subroutine_bad_returns_witness :
  retstr_of Demo.vb2pytype "S" (mkcmd "subroutine" "" ["Units"] [("x", "Long")])
  = raise ValueError.
Proof. apply subroutine_bad_returns; [reflexivity | discriminate | discriminate]. Defined.

(** X10.  A command whose kind is none of function, subroutine, datastruct
    and unknown is not skipped: it is wrapped like a function with no
    return section, a stub-call body, and only its documentation entry is
    needed. *)
Theorem other_kind_wrapped vb2pytype wrap_longlines (doc : Type) fmt_docstr STUBDIR path_join
  (apidat : apistore) (docdat : list (string * doc)) (cmdname : string) (c : cmd) (d : doc)
  (rest fid log : list string) :
  ~ In (cmdtype c) ["function"; "subroutine"; "datastruct"; "unknown"] ->
  dict_get cmdname apidat = Some c ->
  dict_get cmdname docdat = Some d ->
  retstr_of vb2pytype cmdname c = ok ""
  /\ body_of wrap_longlines STUBDIR path_join cmdname c
     = [I2 ++ "lib = self._dobj.CreateLib(r" ++ dq ++ path_join STUBDIR (cmdname ++ ".frs")
           ++ dq ++ ")" ++ nl;
        I2 ++ "return lib.libfunct(" ++ paramstr_of wrap_longlines c ++ ")" ++ nl]
  /\ exists ws,
       wrap_cmd vb2pytype wrap_longlines doc fmt_docstr STUBDIR path_join docdat cmdname c = ok ws
       /\ run_loop vb2pytype wrap_longlines doc fmt_docstr STUBDIR path_join
            apidat docdat (cmdname :: rest) fid log
          = run_loop vb2pytype wrap_longlines doc fmt_docstr STUBDIR path_join
              apidat docdat rest (app fid ws) (app log [wrapping_msg cmdname]).
Proof.
  intros Hk Hc Hd.
  assert (Ne : forall k, In k ["function"; "subroutine"; "datastruct"; "unknown"] ->
                 String.eqb (cmdtype c) k = false)
    by (intros k Hin; apply String.eqb_neq; intros E; apply Hk; rewrite E; exact Hin).
  assert (Hr : retstr_of vb2pytype cmdname c = ok "").
  { unfold retstr_of. rewrite !Ne by (simpl; tauto). reflexivity. }
  split; [exact Hr|]. split.
  - unfold body_of. rewrite Ne by (simpl; tauto). reflexivity.
  - destruct (wrap_cmd_ok_of vb2pytype wrap_longlines fmt_docstr STUBDIR path_join
                docdat cmdname c d "" Hd Hr) as (ws & Hw & _).
    exists ws. split; [exact Hw|].
    cbn [run_loop]. unfold getitem. rewrite Hc. simpl.
    rewrite Ne by (simpl; tauto). rewrite Hw. reflexivity.
Qed.

Lemma other_kind_wrapped_witness :
  let c := mkcmd "Function" "" [] [] in
  retstr_of Demo.vb2pytype "F" c = ok ""
  /\ body_of Demo.wrap_longlines Demo.STUBDIR Demo.path_join "F" c
     = [I2 ++ "lib = self._dobj.CreateLib(r" ++ dq ++ Demo.path_join Demo.STUBDIR ("F" ++ ".frs")
           ++ dq ++ ")" ++ nl;
        I2 ++ "return lib.libfunct(" ++ paramstr_of Demo.wrap_longlines c ++ ")" ++ nl]
  /\ exists ws,
       Demo.wrap_cmd [("F", "doc")] "F" c = ok ws
       /\ run_loop Demo.vb2pytype Demo.wrap_longlines string Demo.fmt_docstr Demo.STUBDIR
            Demo.path_join [("F", c)] [("F", "doc")] ["F"] [] []
          = run_loop Demo.vb2pytype Demo.wrap_longlines string Demo.fmt_docstr Demo.STUBDIR
              Demo.path_join [("F", c)] [("F", "doc")] [] (app [] ws) (app [] [wrapping_msg "F"]).
Proof.
  intros c.
  apply (other_kind_wrapped Demo.vb2pytype Demo.wrap_longlines string Demo.fmt_docstr
           Demo.STUBDIR Demo.path_join [("F", c)] [("F", "doc")] "F" c "doc" [] [] []);
    [simpl; intuition discriminate | reflexivity | reflexivity].
Defined.

(** X11.  Outside datastructs no parameter gets a default: the [def] line
    lists the receiver, then the normalised signature names, in order. *)
Theorem header_without_defaults (c : cmd) :
  cmdtype c <> "datastruct" ->
  arglist_of c = "self" :: map (fun it => newparam (fst it)) (sig c).
Proof.
  intros Hty. rewrite arglist_not_datastruct by (apply String.eqb_neq; exact Hty).
  unfold paramlist_of, params_of. simpl. rewrite map_map. reflexivity.
Qed.

Lemma header_without_defaults_witness :
  arglist_of (mkcmd "subroutine" "" [] [("coords()", "Double"); ("n", "Long")])
  = "self" :: map (fun it => newparam (fst it)) [("coords()", "Double"); ("n", "Long")].
Proof. apply header_without_defaults. discriminate. Defined.

(** Witnesses of the run-level properties, on the concrete collaborators. *)
Lemma main_errors_witness :
  (exists n c, dict_get n [("GetUnits", Demo.GetUnits)] = Some c /\ cmdtype c <> "unknown"
               /\ dict_get n ([] : list (string * string)) = None /\ KeyError "GetUnits" = KeyError n)
  \/ KeyError "GetUnits" = ValueError.
Proof.
  apply (main_errors Demo.vb2pytype Demo.wrap_longlines string Demo.fmt_docstr Demo.STUBDIR
           Demo.path_join "2017-01-01 00:00:00").
  vm_compute. reflexivity.
Defined.

Lemma main_status_lines_witness :
  exists w l, Demo.main "2017-01-01 00:00:00" Demo.apidat Demo.docdat = ok (w, l)
  /\ l = (nl ++ "Wrapping commands in python...")
         :: map (status_line Demo.apidat) (map fst Demo.apidat).
Proof.
  destruct (Demo.main "2017-01-01 00:00:00" Demo.apidat Demo.docdat) as [e|[w l]] eqn:E.
  - vm_compute in E. discriminate.
  - exists w, l. split; [reflexivity|].
    exact (main_status_lines Demo.vb2pytype Demo.wrap_longlines string Demo.fmt_docstr
             Demo.STUBDIR Demo.path_join "2017-01-01 00:00:00" Demo.apidat Demo.docdat w l E).
Defined.

Lemma main_output_shape_witness :
  exists w l, Demo.main "2017-01-01 00:00:00" Demo.apidat Demo.docdat = ok (w, l)
  /\ exists wss,
    Forall2 (fun n ws => exists c, dict_get n Demo.apidat = Some c
                                   /\ Demo.wrap_cmd Demo.docdat n c = ok ws
                                   /\ hd_error ws = Some separator)
            (recognised Demo.apidat (map fst Demo.apidat)) wss
    /\ w = CLASTR "2017-01-01 00:00:00" :: concat wss.
Proof.
  destruct (Demo.main "2017-01-01 00:00:00" Demo.apidat Demo.docdat) as [e|[w l]] eqn:E.
  - vm_compute in E. discriminate.
  - exists w, l. split; [reflexivity|].
    exact (main_output_shape Demo.vb2pytype Demo.wrap_longlines string Demo.fmt_docstr
             Demo.STUBDIR Demo.path_join "2017-01-01 00:00:00" Demo.apidat Demo.docdat w l E).
Defined.
